(** * express-swagger: the schema-validating route wrapper of [index.ts]

    The development embeds [editTodo], [validationError] and the
    [wrappedController] closure built by [put], together with the three
    schema documents quoted in the project documentation, and proves the observable
    contract of the validation pipeline. *)

From Stdlib Require Import List String Ascii ZArith Bool DecimalString.
Import ListNotations.
Open Scope string_scope.
Set Warnings "-register-all".

(** ** Runtime values *)

(** A JavaScript value as it travels through the wrapper.  Objects are
    association lists in property-enumeration order; a property read takes
    the first binding of a key.  Numbers are restricted to integers. *)
Inductive value : Type :=
| VUndefined
| VNull
| VBool (b : bool)
| VNum (n : Z)
| VStr (s : string)
| VArr (items : list value)
| VObj (props : list (string * value)).

(** What a JavaScript computation can throw here. *)
Inductive thrown : Type :=
| ThrownString (msg : string)        (* [throw <string>] *)
| TypeError                          (* property read on [null]/[undefined] *)
| CannotFindModule (path : string)   (* [require] of a file that is absent *)
| SchemaError (schema : value)       (* [ajv.compile] refusing a schema *)
| ThrownValue (v : value).           (* anything else a controller throws *)

Inductive result (A : Type) : Type :=
| Ok (a : A)
| Throw (e : thrown).
Arguments Ok {A} a.
Arguments Throw {A} e.

Module JS.

(** Own-property lookup in an object's property list. *)
Fixpoint lookup (k : string) (props : list (string * value)) : option value :=
  match props with
  | [] => None
  | (k', v) :: rest => if String.eqb k k' then Some v else lookup k rest
  end.

Definition own (props : list (string * value)) (k : string) : value :=
  match lookup k props with
  | Some v => v
  | None => VUndefined
  end.

(** [v.k] for a key [k] that no prototype defines (such as [id],
    [message], [completed]): a [TypeError] on [null] and [undefined],
    the own property of an object, [undefined] otherwise. *)
Definition get_prop (v : value) (k : string) : result value :=
  match v with
  | VUndefined | VNull => Throw TypeError
  | VObj props => Ok (own props k)
  | _ => Ok VUndefined
  end.

(** ToBoolean, the conversion applied by [!] and by [? :]. *)
Definition truthy (v : value) : bool :=
  match v with
  | VUndefined | VNull => false
  | VBool b => b
  | VNum n => negb (n =? 0)%Z
  | VStr s => negb (String.eqb s "")
  | VArr _ | VObj _ => true
  end.

Definition not (v : value) : value := VBool (negb (truthy v)).

Definition is_undefined (v : value) : bool :=
  match v with VUndefined => true | _ => false end.

End JS.

(** ** The example controller (index.ts, lines 23-33) *)

Definition editTodo (params reqBody reqQuery : value) : result value :=
  match JS.get_prop params "id" with
  | Throw e => Throw e
  | Ok id =>
    match JS.get_prop reqBody "message" with
    | Throw e => Throw e
    | Ok message =>
      match JS.get_prop reqBody "completed" with
      | Throw e => Throw e
      | Ok completed =>
        Ok (VObj [("id", id); ("message", message);
                  ("completed", JS.not completed)])
      end
    end
  end.

(** ** The schema documents (project documentation, part_000, lines 57-89) *)

Definition EditTodoParams_json : value :=
  VObj [("type", VStr "object");
        ("properties", VObj [("id", VObj [("type", VStr "string")])]);
        ("required", VArr [VStr "id"])].

Definition EditTodoReqBody_json : value :=
  VObj [("type", VStr "object");
        ("properties",
         VObj [("message", VObj [("type", VStr "string")]);
               ("completed?", VObj [("type", VStr "boolean");
                                    ("nullable", VBool true)])]);
        ("required", VArr [VStr "message"])].

Definition EditTodoResBody_json : value :=
  VObj [("type", VStr "object");
        ("properties",
         VObj [("id", VObj [("type", VStr "string")]);
               ("message", VObj [("type", VStr "string")]);
               ("completed", VObj [("type", VStr "boolean")])]);
        ("required", VArr [VStr "id"; VStr "message"; VStr "completed"])].

(** The [./schemas] directory as [require] sees it. *)
Definition schemas_dir (path : string) : option value :=
  if String.eqb path "./schemas/EditTodoParams.json" then Some EditTodoParams_json
  else if String.eqb path "./schemas/EditTodoReqBody.json" then Some EditTodoReqBody_json
  else if String.eqb path "./schemas/EditTodoResBody.json" then Some EditTodoResBody_json
  else None.

(** ** Ajv, for the keywords the schema documents use

    [new Ajv()] with its default options, restricted to schemas written
    with [type], [nullable], [properties] and [required] (and the boolean
    schemas).  [well_formed] is the model's domain: a schema outside it
    is not compiled by the model, although Ajv compiles schemas with
    further keywords (annotations such as [title] among them).  Property
    names in schemas are taken not to be names that [Object.prototype]
    defines: Ajv reads [data.prop] through the prototype, the model reads
    own properties. *)
Module Ajv.

Definition type_names : list string :=
  ["string"; "number"; "integer"; "boolean"; "null"; "object"; "array"].

Definition mem (s : string) (l : list string) : bool :=
  existsb (String.eqb s) l.

(** [type: t] against a datum. *)
Definition has_type (t : string) (d : value) : bool :=
  match d with
  | VUndefined => false
  | VNull => String.eqb t "null"
  | VBool _ => String.eqb t "boolean"
  | VNum _ => String.eqb t "number" || String.eqb t "integer"
  | VStr _ => String.eqb t "string"
  | VArr _ => String.eqb t "array"
  | VObj _ => String.eqb t "object"
  end.

Definition strings_of (items : list value) : option (list string) :=
  fold_right
    (fun v acc =>
       match v, acc with
       | VStr s, Some l => Some (s :: l)
       | _, _ => None
       end)
    (Some []) items.

(** The value of the [type] keyword as a list of names. *)
Definition declared_types (kws : list (string * value)) : list string :=
  match JS.lookup "type" kws with
  | Some (VStr t) => [t]
  | Some (VArr ts) =>
    match strings_of ts with Some l => l | None => [] end
  | _ => []
  end.

(** [getSchemaTypes]: [nullable: true] adds [null] to the declared
    types. *)
Definition schema_types (kws : list (string * value)) : list string :=
  let ts := declared_types kws in
  if mem "null" ts then ts
  else match JS.lookup "nullable" kws with
       | Some (VBool true) => ts ++ ["null"]
       | _ => ts
       end.

Definition check_type (kws : list (string * value)) (d : value) : bool :=
  match schema_types kws with
  | [] => true
  | ts => existsb (fun t => has_type t d) ts
  end.

(** [required] only constrains objects; a property counts as present
    when reading it does not give [undefined]. *)
Definition check_required (arg d : value) : bool :=
  match arg, d with
  | VArr names, VObj props =>
    forallb
      (fun n =>
         match n with
         | VStr k => negb (JS.is_undefined (JS.own props k))
         | _ => true
         end)
      names
  | _, _ => true
  end.

(** The validation function of a compiled schema. *)
Fixpoint validate (schema d : value) {struct schema} : bool :=
  match schema with
  | VBool b => b
  | VObj kws =>
    (fix keywords (l : list (string * value)) : bool :=
       match l with
       | [] => true
       | (kw, arg) :: l' =>
         (if String.eqb kw "type" then check_type kws d
          else if String.eqb kw "required" then check_required arg d
          else if String.eqb kw "properties" then
            match arg, d with
            | VObj subs, VObj props =>
              (fix each (ps : list (string * value)) : bool :=
                 match ps with
                 | [] => true
                 | (k, sub) :: ps' =>
                   (if JS.is_undefined (JS.own props k) then true
                    else validate sub (JS.own props k))
                   && each ps'
                 end) subs
            | _, _ => true
            end
          else true)
         && keywords l'
       end) kws
  | _ => true
  end.

Fixpoint unique (l : list string) : bool :=
  match l with
  | [] => true
  | x :: l' => negb (mem x l') && unique l'
  end.

Definition valid_type_arg (arg : value) : bool :=
  match arg with
  | VStr t => mem t type_names
  | VArr ts =>
    match strings_of ts with
    | Some (t :: l) =>
      forallb (fun x => mem x type_names) (t :: l) && unique (t :: l)
    | _ => false
    end
  | _ => false
  end.

Definition valid_nullable (kws : list (string * value)) (arg : value) : bool :=
  match arg with
  | VBool b =>
    match declared_types kws with
    | [] => false
    | ts => b || negb (mem "null" ts)
    end
  | _ => false
  end.

Definition valid_required_arg (arg : value) : bool :=
  match arg with
  | VArr names =>
    match strings_of names with Some l => unique l | None => false end
  | _ => false
  end.

(** The schemas the model compiles. *)
Fixpoint well_formed (schema : value) : bool :=
  match schema with
  | VBool _ => true
  | VObj kws =>
    (fix keywords (l : list (string * value)) : bool :=
       match l with
       | [] => true
       | (kw, arg) :: l' =>
         (if String.eqb kw "type" then valid_type_arg arg
          else if String.eqb kw "nullable" then valid_nullable kws arg
          else if String.eqb kw "required" then valid_required_arg arg
          else if String.eqb kw "properties" then
            match arg with
            | VObj subs =>
              (fix each (ps : list (string * value)) : bool :=
                 match ps with
                 | [] => true
                 | (_, sub) :: ps' => well_formed sub && each ps'
                 end) subs
            | _ => false
            end
          else false)
         && keywords l'
       end) kws
  | _ => false
  end.

(** [ajv.compile(schema)]: a validation function, or nothing when
    compilation throws. *)
Definition compile (schema : value) : option (value -> bool) :=
  if well_formed schema then Some (validate schema) else None.

End Ajv.

(** ** JSON.stringify(v, undefined, 2)

    An executable rendering for integers below 10^21 in absolute value
    (from there on JavaScript prints an exponent); the wrapper is stated
    over any stringifier, and this one instantiates it. *)
Module JSON.

Definition char (n : nat) : string := String (ascii_of_nat n) EmptyString.
Definition dquote : string := char 34.
Definition backslash : string := char 92.
Definition newline : string := char 10.

Definition hex (n : nat) : string :=
  String.substring n 1 "0123456789abcdef".

Definition escape (c : ascii) : string :=
  let n := nat_of_ascii c in
  if Nat.eqb n 34 then backslash ++ dquote
  else if Nat.eqb n 92 then backslash ++ backslash
  else if Nat.eqb n 8 then backslash ++ "b"
  else if Nat.eqb n 9 then backslash ++ "t"
  else if Nat.eqb n 10 then backslash ++ "n"
  else if Nat.eqb n 12 then backslash ++ "f"
  else if Nat.eqb n 13 then backslash ++ "r"
  else if Nat.ltb n 32 then
    backslash ++ "u00" ++ hex (Nat.div n 16) ++ hex (Nat.modulo n 16)
  else String c EmptyString.

Definition quote (s : string) : string :=
  dquote ++ String.concat EmptyString (map escape (list_ascii_of_string s))
         ++ dquote.

Definition number (n : Z) : string := NilZero.string_of_int (Z.to_int n).

(** [None] is the [undefined] that [JSON.stringify] returns. *)
Fixpoint stringify_at (indent : string) (v : value) : option string :=
  let inner := indent ++ "  " in
  let sep := "," ++ newline in
  match v with
  | VUndefined => None
  | VNull => Some "null"
  | VBool true => Some "true"
  | VBool false => Some "false"
  | VNum n => Some (number n)
  | VStr s => Some (quote s)
  | VArr [] => Some "[]"
  | VArr items =>
    let rows :=
      map (fun x => match stringify_at inner x with
                    | Some r => inner ++ r
                    | None => inner ++ "null"
                    end) items in
    Some ("[" ++ newline ++ String.concat sep rows ++ newline ++ indent ++ "]")
  | VObj props =>
    let rows :=
      flat_map (fun kv => match stringify_at inner (snd kv) with
                          | Some r => [inner ++ quote (fst kv) ++ ": " ++ r]
                          | None => []
                          end) props in
    match rows with
    | [] => Some "{}"
    | _ => Some ("{" ++ newline ++ String.concat sep rows
                     ++ newline ++ indent ++ "}")
    end
  end.

Definition stringify (v : value) : option string :=
  stringify_at EmptyString v.

End JSON.

(** ** Requests, events and the effect monad *)

(** The part of an Express request the wrapper can see: the three
    payloads it reads, and request data it never reads. *)
Record Request : Type := {
  params : value;
  body : value;
  query : value;
  url : string;
  headers : list (string * string)
}.

(** The four validation points. *)
Inductive stage : Type := Params | ReqBody | ReqQuery | ResBody.

(** What one run of the wrapper does, in order. *)
Inductive event : Type :=
| ConsoleLog (req : Request)
| Validate (st : stage) (schema data : value) (ok : bool)
| Controller (p b q : value)
| Respond (status : Z) (json : value).

(** A computation: the events it performed and how it ended. *)
Definition M (A : Type) : Type := (list event * result A)%type.

Definition ret {A} (a : A) : M A := ([], Ok a).

Definition bind {A B} (m : M A) (f : A -> M B) : M B :=
  match m with
  | (t, Ok a) => ((t ++ fst (f a))%list, snd (f a))
  | (t, Throw e) => (t, Throw e)
  end.

Definition throw {A} (e : thrown) : M A := ([], Throw e).
Definition emit (e : event) : M unit := ([e], Ok tt).
Definition when (c : bool) (m : M unit) : M unit := if c then m else ret tt.

Definition trace {A} (m : M A) : list event := fst m.
Definition outcome {A} (m : M A) : result A := snd m.

Declare Scope js_scope.
Delimit Scope js_scope with js.
Notation "x <- m ;; k" := (bind m (fun x => k))
  (at level 61, m at next level, right associativity) : js_scope.
Notation "m ;; k" := (bind m (fun _ => k))
  (at level 61, right associativity) : js_scope.
Open Scope js_scope.

(** The [schemas] argument of [put]. *)
Record Schemas : Type := {
  paramsSchema : option string;
  reqBodySchema : option string;
  resBodySchema : option string;
  reqQuerySchema : option string
}.

(** The label [wrappedController] gives each stage in its error. *)
Definition label (st : stage) : string :=
  match st with
  | Params => "request"
  | ReqBody => "body"
  | ReqQuery => "query"
  | ResBody => "response body"
  end.

Definition schema_ref (schemas : Schemas) (st : stage) : option string :=
  match st with
  | Params => paramsSchema schemas
  | ReqBody => reqBodySchema schemas
  | ReqQuery => reqQuerySchema schemas
  | ResBody => resBodySchema schemas
  end.

(** The stages that run before a stage. *)
Definition earlier (st : stage) : list stage :=
  match st with
  | Params => []
  | ReqBody => [Params]
  | ReqQuery => [Params; ReqBody]
  | ResBody => [Params; ReqBody; ReqQuery]
  end.

(** [schemas.x ? ... : {}]: an absent reference and the empty string are
    both falsy. *)
Definition given (ref : option string) : option string :=
  match ref with
  | Some name => if JS.truthy (VStr name) then Some name else None
  | None => None
  end.

Section Wrapper.

(** The environment of the closure: the module loader, [ajv.compile]
    (whose validation functions, under the default options of
    [new Ajv()], only read the data), and [JSON.stringify] with
    indentation 2. *)
Variable require : string -> option value.
Variable compile : value -> option (value -> bool).
Variable JSON_stringify : value -> option string.

(** A template literal prints [undefined] as the word. *)
Definition interpolate (s : option string) : string :=
  match s with Some x => x | None => "undefined" end.

(** index.ts, lines 35-40. *)
Definition validationError (name : string) (payload schema : value) : string :=
  "Could not validate " ++ name ++ " "
    ++ interpolate (JSON_stringify payload)
    ++ " against schema "
    ++ interpolate (JSON_stringify schema).

Definition console_log (req : Request) : M unit := emit (ConsoleLog req).

(** [schemas.x ? require(`./schemas/${schemas.x}.json`) : {}] *)
Definition load_schema (ref : option string) : M value :=
  match given ref with
  | Some name =>
    let path := "./schemas/" ++ name ++ ".json" in
    match require path with
    | Some schema => ret schema
    | None => throw (CannotFindModule path)
    end
  | None => ret (VObj [])
  end.

Definition ajv_compile (schema : value) : M (value -> bool) :=
  match compile schema with
  | Some validate => ret validate
  | None => throw (SchemaError schema)
  end.

(** A call of a compiled validation function. *)
Definition run (st : stage) (validate : value -> bool)
           (schema data : value) : M bool :=
  emit (Validate st schema data (validate data)) ;; ret (validate data).

Definition res_status_json (status : Z) (v : value) : M unit :=
  emit (Respond status v).

Variable schemas : Schemas.
Variable controller : value -> value -> value -> result value.

Definition call_controller (p b q : value) : M value :=
  emit (Controller p b q) ;; ([], controller p b q).

(** index.ts, lines 53-97. *)
Definition wrappedController (req : Request) : M unit :=
  console_log req ;;
  paramsSchema <- load_schema (paramsSchema schemas) ;;
  validateParams <- ajv_compile paramsSchema ;;
  okParams <- run Params validateParams paramsSchema (params req) ;;
  when (negb okParams)
    (throw (ThrownString
              (validationError "request" (params req) paramsSchema))) ;;
  reqBodySchema <- load_schema (reqBodySchema schemas) ;;
  validateReqBody <- ajv_compile reqBodySchema ;;
  okReqBody <- run ReqBody validateReqBody reqBodySchema (body req) ;;
  when (negb okReqBody)
    (throw (ThrownString
              (validationError "body" (body req) reqBodySchema))) ;;
  reqQuerySchema <- load_schema (reqQuerySchema schemas) ;;
  validateReqQuery <- ajv_compile reqQuerySchema ;;
  okReqQuery <- run ReqQuery validateReqQuery reqQuerySchema (query req) ;;
  when (negb okReqQuery)
    (throw (ThrownString
              (validationError "query" (query req) reqQuerySchema))) ;;
  resBody <- call_controller (params req) (body req) (query req) ;;
  resBodySchema <- load_schema (resBodySchema schemas) ;;
  validateResBody <- ajv_compile resBodySchema ;;
  okResBody <- run ResBody validateResBody resBodySchema resBody ;;
  when (negb okResBody)
    (throw (ThrownString
              (validationError "response body" resBody resBodySchema))) ;;
  res_status_json 200 resBody.

(** *** One stage, as a pure verdict *)

(** The schema a reference resolves to and what its validation function
    says about a payload; a [Throw] when loading or compiling fails. *)
Definition verdict (ref : option string) (data : value)
  : result (value * bool) :=
  match given ref with
  | Some name =>
    let path := "./schemas/" ++ name ++ ".json" in
    match require path with
    | None => Throw (CannotFindModule path)
    | Some schema =>
      match compile schema with
      | Some validate => Ok (schema, validate data)
      | None => Throw (SchemaError schema)
      end
    end
  | None =>
    match compile (VObj []) with
    | Some validate => Ok (VObj [], validate data)
    | None => Throw (SchemaError (VObj []))
    end
  end.

(** The events and the outcome of one validation stage. *)
Definition check (st : stage) (ref : option string) (data : value) : M unit :=
  match verdict ref data with
  | Throw e => throw e
  | Ok (schema, true) => emit (Validate st schema data true)
  | Ok (schema, false) =>
    emit (Validate st schema data false) ;;
    throw (ThrownString (validationError (label st) data schema))
  end.

(** The payload each stage of a request validates. *)
Definition payload (req : Request) (st : stage) : result value :=
  match st with
  | Params => Ok (params req)
  | ReqBody => Ok (body req)
  | ReqQuery => Ok (query req)
  | ResBody => controller (params req) (body req) (query req)
  end.

End Wrapper.

(** [put]: registration adds the wrapped controller to the application's
    routing table (index.ts, lines 42-100). *)
Definition Express : Type := list (string * (Request -> M unit)).

Definition put (require : string -> option value)
           (compile : value -> option (value -> bool))
           (JSON_stringify : value -> option string)
           (app : Express) (route : string) (schemas : Schemas)
           (controller : value -> value -> value -> result value) : Express :=
  (app ++ [(route, wrappedController require compile JSON_stringify
                                     schemas controller)])%list.

(** The example registration (index.ts, lines 109-119). *)
Definition todo_schemas : Schemas :=
  {| paramsSchema := Some "EditTodoParams";
     reqBodySchema := Some "EditTodoReqBody";
     resBodySchema := Some "EditTodoResBody";
     reqQuerySchema := None |}.

Definition app : Express :=
  put schemas_dir Ajv.compile JSON.stringify [] "/todo/:id" todo_schemas editTodo.

(** The handler of the example route. *)
Definition todo_route (JSON_stringify : value -> option string)
  : Request -> M unit :=
  wrappedController schemas_dir Ajv.compile JSON_stringify todo_schemas editTodo.

(** ** Reading a trace *)

Inductive step : Type := SValidate (st : stage) | SController | SRespond.

Definition step_of (e : event) : list step :=
  match e with
  | ConsoleLog _ => []
  | Validate st _ _ _ => [SValidate st]
  | Controller _ _ _ => [SController]
  | Respond _ _ => [SRespond]
  end.

Definition steps (t : list event) : list step := flat_map step_of t.

(** The order the specification fixes. *)
Definition pipeline : list step :=
  [SValidate Params; SValidate ReqBody; SValidate ReqQuery;
   SController; SValidate ResBody; SRespond].

Definition response_of (e : event) : list (Z * value) :=
  match e with Respond status v => [(status, v)] | _ => [] end.

Definition responses (t : list event) : list (Z * value) :=
  flat_map response_of t.

Definition is_controller (e : event) : bool :=
  match e with Controller _ _ _ => true | _ => false end.

Definition mkreq (p b q : value) : Request :=
  {| params := p; body := b; query := q; url := "/todo/1"; headers := [] |}.

(** ** Requests to the example route *)

(** Reading [v.k] gives no value: [v] is nullish, not an object, or an
    object without a defined [k]. *)
Definition lacks (k : string) (v : value) : bool :=
  match JS.get_prop v k with
  | Ok x => JS.is_undefined x
  | Throw _ => true
  end.

(** A request the example route accepts. *)
Definition valid_todo_request (req : Request) : bool :=
  Ajv.validate EditTodoParams_json (params req)
  && Ajv.validate EditTodoReqBody_json (body req).

(** The request of the README: [PUT /todo/1] with body [{message: "todo"}]. *)
Definition readme_request : Request :=
  mkreq (VObj [("id", VStr "1")]) (VObj [("message", VStr "todo")]) (VObj []).

(** The same request with an empty body. *)
Definition empty_body_request : Request :=
  mkreq (VObj [("id", VStr "1")]) (VObj []) (VObj []).

(** The text Node prints for the error of [empty_body_request]. *)
Definition empty_body_message : string :=
  let q s := JSON.dquote ++ s ++ JSON.dquote in
  let nl := JSON.newline in
  "Could not validate body {} against schema {" ++ nl
  ++ "  " ++ q "type" ++ ": " ++ q "object" ++ "," ++ nl
  ++ "  " ++ q "properties" ++ ": {" ++ nl
  ++ "    " ++ q "message" ++ ": {" ++ nl
  ++ "      " ++ q "type" ++ ": " ++ q "string" ++ nl
  ++ "    }," ++ nl
  ++ "    " ++ q "completed?" ++ ": {" ++ nl
  ++ "      " ++ q "type" ++ ": " ++ q "boolean" ++ "," ++ nl
  ++ "      " ++ q "nullable" ++ ": true" ++ nl
  ++ "    }" ++ nl
  ++ "  }," ++ nl
  ++ "  " ++ q "required" ++ ": [" ++ nl
  ++ "    " ++ q "message" ++ nl
  ++ "  ]" ++ nl
  ++ "}".

(** The README request sent again, by another client. *)
Definition readme_request_again : Request :=
  {| params := VObj [("id", VStr "1")];
     body := VObj [("message", VStr "todo")];
     query := VObj [];
     url := "/todo/1";
     headers := [("user-agent", "curl")] |}.

(** A controller whose result does not have the declared shape. *)
Definition lying_controller (p b q : value) : result value := Ok (VObj []).

(** ** Shapes of values *)

(** [null] and [undefined], on which a property read throws. *)
Definition nullish (v : value) : bool :=
  match v with VUndefined | VNull => true | _ => false end.

Definition is_string (v : value) : bool :=
  match v with VStr _ => true | _ => false end.

Definition is_boolean (v : value) : bool :=
  match v with VBool _ => true | _ => false end.

(** What [{type: "boolean", nullable: true}] admits for a property that
    may be missing. *)
Definition optional_boolean (v : value) : bool :=
  match v with VUndefined | VNull | VBool _ => true | _ => false end.

(** A registration without any schema. *)
Definition no_schemas : Schemas :=
  {| paramsSchema := None; reqBodySchema := None;
     resBodySchema := None; reqQuerySchema := None |}.

(** The example registration with a response schema whose file does not
    exist. *)
Definition missing_response_schema : Schemas :=
  {| paramsSchema := Some "EditTodoParams";
     reqBodySchema := Some "EditTodoReqBody";
     resBodySchema := Some "NoSuchSchema";
     reqQuerySchema := None |}.

(** A request that arrives without a parsed body. *)
Definition bodiless_request : Request :=
  mkreq (VObj [("id", VStr "1")]) VUndefined (VObj []).

(** A request whose path parameters lack [id]. *)
Definition no_id_request : Request := mkreq (VObj []) (VObj []) (VObj []).

(** ** The controller and its handler argument *)

(** C2: on every object-valued [params] and [reqBody], [editTodo] returns
    the record whose [id] is [params.id], whose [message] is
    [reqBody.message] and whose [completed] is the negation of
    [reqBody.completed]; a missing [completed] gives [true]; the two
    documented requests give the documented records. *)
Theorem editTodo_echoes_and_negates :
  (forall ps bs q,
      editTodo (VObj ps) (VObj bs) q =
      Ok (VObj [("id", JS.own ps "id");
                ("message", JS.own bs "message");
                ("completed",
                 VBool (negb (JS.truthy (JS.own bs "completed"))))]))
  /\ (forall ps bs q,
         JS.lookup "completed" bs = None ->
         editTodo (VObj ps) (VObj bs) q =
         Ok (VObj [("id", JS.own ps "id");
                   ("message", JS.own bs "message");
                   ("completed", VBool true)]))
  /\ (forall q,
         editTodo (VObj [("id", VStr "1")]) (VObj [("message", VStr "todo")]) q =
         Ok (VObj [("id", VStr "1"); ("message", VStr "todo");
                   ("completed", VBool true)]))
  /\ (forall q,
         editTodo (VObj [("id", VStr "1")])
                  (VObj [("message", VStr "todo"); ("completed", VBool true)]) q =
         Ok (VObj [("id", VStr "1"); ("message", VStr "todo");
                   ("completed", VBool false)])).
Proof.
  repeat split; intros; try reflexivity.
  unfold editTodo, JS.get_prop, JS.not, JS.own.
  rewrite H. reflexivity.
Qed.

(** C10: the result of [editTodo] is the same for any two query values. *)
Theorem editTodo_ignores_query :
  forall p b q1 q2, editTodo p b q1 = editTodo p b q2.
Proof.
  intros p b q1 q2. unfold editTodo.
  destruct (JS.get_prop p "id"); reflexivity.
Qed.

(** ** The pipeline, stage by stage *)

Lemma bind_ext {A B} (m : M A) (f g : A -> M B) :
  (forall a, f a = g a) -> bind m f = bind m g.
Proof.
  intros H. destruct m as [t [a | e]]; simpl; [rewrite H|]; reflexivity.
Qed.

Lemma label_injective : forall s1 s2, label s1 = label s2 -> s1 = s2.
Proof.
  intros [] []; simpl; intros H; try reflexivity; discriminate H.
Qed.

(** Membership of an event in an explicit trace. *)
Ltac in_trace H :=
  simpl in H;
  repeat match type of H with
         | _ \/ _ => destruct H as [H | H]
         | False => contradiction
         end;
  try discriminate H.

Section Stages.

Variable require : string -> option value.
Variable compile : value -> option (value -> bool).
Variable JSON_stringify : value -> option string.
Variable schemas : Schemas.
Variable controller : value -> value -> value -> result value.

#[local] Abbreviation verdict_ := (verdict require compile).
#[local] Abbreviation check_ := (check require compile JSON_stringify).
#[local] Abbreviation error_ := (validationError JSON_stringify).
#[local] Abbreviation handler :=
  (wrappedController require compile JSON_stringify schemas controller).

(** The four inlined copies of a stage in [wrappedController] are [check]. *)
Lemma stage_inline {B} st ref data (k : M B) :
  (schema <- load_schema require ref ;;
   validate <- ajv_compile compile schema ;;
   ok <- run st validate schema data ;;
   when (negb ok)
     (throw (ThrownString (error_ (label st) data schema))) ;;
   k)
  = (check_ st ref data ;; k).
Proof.
  unfold check, verdict, load_schema, ajv_compile, run.
  destruct (given ref) as [name |].
  - destruct (require _) as [schema |]; [| reflexivity]. cbn.
    destruct (compile schema) as [validate |]; [| reflexivity]. cbn.
    destruct (validate data); reflexivity.
  - cbn. destruct (compile (VObj [])) as [validate |]; [| reflexivity]. cbn.
    destruct (validate data); reflexivity.
Qed.

Lemma wrappedController_stages req :
  handler req =
  (console_log req ;;
   check_ Params (paramsSchema schemas) (params req) ;;
   check_ ReqBody (reqBodySchema schemas) (body req) ;;
   check_ ReqQuery (reqQuerySchema schemas) (query req) ;;
   resBody <- call_controller controller (params req) (body req) (query req) ;;
   check_ ResBody (resBodySchema schemas) resBody ;;
   res_status_json 200 resBody).
Proof.
  unfold wrappedController.
  apply bind_ext; intros _.
  etransitivity; [apply (stage_inline Params) |]. apply bind_ext; intros _.
  etransitivity; [apply (stage_inline ReqBody) |]. apply bind_ext; intros _.
  etransitivity; [apply (stage_inline ReqQuery) |]. apply bind_ext; intros _.
  apply bind_ext; intros resBody.
  apply (stage_inline ResBody).
Qed.

(** Every way a run can go: the verdict of each stage in turn, and the
    controller's result between the third and the fourth. *)
Ltac run_cases req :=
  rewrite ?(wrappedController_stages req); unfold check;
  destruct (verdict_ (paramsSchema schemas) (params req))
    as [[?s1 [|]] | ?e1] eqn:?V1; cbn -[verdict validationError];
  [ destruct (verdict_ (reqBodySchema schemas) (body req))
      as [[?s2 [|]] | ?e2] eqn:?V2; cbn -[verdict validationError];
    [ destruct (verdict_ (reqQuerySchema schemas) (query req))
        as [[?s3 [|]] | ?e3] eqn:?V3; cbn -[verdict validationError];
      [ destruct (controller (params req) (body req) (query req))
          as [?v | ?ec] eqn:?C; cbn -[verdict validationError];
        [ match goal with
          | v : value |- _ =>
            destruct (verdict_ (resBodySchema schemas) v)
              as [[?s4 [|]] | ?e4] eqn:?V4; cbn -[verdict validationError]
          end
        | ]
      | | ]
    | | ]
  | | ].

(** C1: the steps of every run are an initial segment of params, body,
    query, handler, response, send; a failed validation is the last event
    of its run; and when the params validation fails, it is the only
    step, so body and query are not validated and the controller is not
    called. *)
Theorem pipeline_order_and_short_circuit :
  forall req,
    (exists rest, pipeline = (steps (trace (handler req)) ++ rest)%list)
    /\ (forall st sch d,
           In (Validate st sch d false) (trace (handler req)) ->
           exists before,
             trace (handler req) = (before ++ [Validate st sch d false])%list)
    /\ (forall sch d,
           In (Validate Params sch d false) (trace (handler req)) ->
           steps (trace (handler req)) = [SValidate Params]
           /\ (forall e, In e (trace (handler req)) -> is_controller e = false)).
Proof.
  intros req. run_cases req; unfold pipeline; (split; [| split]).
  all: try (eexists; reflexivity).
  all: try (intros st sch d H; in_trace H; rewrite <- H;
            first [ exists [ConsoleLog req]; reflexivity
                  | eexists [_; _]; reflexivity
                  | eexists [_; _; _]; reflexivity
                  | eexists [_; _; _; _; _]; reflexivity ]).
  all: intros sch d H; in_trace H.
  split; [reflexivity |].
  intros e He; in_trace He; subst e; reflexivity.
Qed.

(** In a run where every stage validated successfully, no stage is
    missing: used to refute that hypothesis on the runs that stop early. *)
Ltac missing_stage H :=
  first
    [ destruct (H Params) as (? & ? & HI); in_trace HI; fail
    | destruct (H ReqBody) as (? & ? & HI); in_trace HI; fail
    | destruct (H ReqQuery) as (? & ? & HI); in_trace HI; fail
    | destruct (H ResBody) as (? & ? & HI); in_trace HI; fail ].

(** The same, for the hypothesis that every stage's verdict is a pass. *)
Ltac failing_verdict H :=
  first
    [ solve [destruct (H Params) as (? & ? & P & V); simpl in P, V; congruence]
    | solve [destruct (H ReqBody) as (? & ? & P & V); simpl in P, V; congruence]
    | solve [destruct (H ReqQuery) as (? & ? & P & V); simpl in P, V; congruence]
    | solve [destruct (H ResBody) as (? & ? & P & V); simpl in P, V; congruence] ].

(** A stage whose predecessors all pass is carried out on its payload:
    the run contains its validation, with the verdict of its schema. *)
Lemma reached_stage_validates :
  forall req st d sch ok,
    payload controller req st = Ok d ->
    (forall st', In st' (earlier st) ->
                 exists sch' d',
                   payload controller req st' = Ok d'
                   /\ verdict_ (schema_ref schemas st') d' = Ok (sch', true)) ->
    verdict_ (schema_ref schemas st) d = Ok (sch, ok) ->
    In (Validate st sch d ok) (trace (handler req)).
Proof.
  intros req st d sch ok P E V.
  assert (E1 : In Params (earlier st) ->
               exists s1, verdict_ (paramsSchema schemas) (params req)
                          = Ok (s1, true)).
  { intros I. destruct (E _ I) as (s & d' & P' & V'). simpl in P', V'.
    injection P' as <-. now exists s. }
  assert (E2 : In ReqBody (earlier st) ->
               exists s2, verdict_ (reqBodySchema schemas) (body req)
                          = Ok (s2, true)).
  { intros I. destruct (E _ I) as (s & d' & P' & V'). simpl in P', V'.
    injection P' as <-. now exists s. }
  assert (E3 : In ReqQuery (earlier st) ->
               exists s3, verdict_ (reqQuerySchema schemas) (query req)
                          = Ok (s3, true)).
  { intros I. destruct (E _ I) as (s & d' & P' & V'). simpl in P', V'.
    injection P' as <-. now exists s. }
  clear E. rewrite (wrappedController_stages req). unfold check.
  destruct st; simpl in P, V, E1, E2, E3.
  - injection P as <-. rewrite V.
    destruct ok; cbn -[verdict validationError]; auto.
  - injection P as <-. destruct E1 as [s1 V1]; [auto |].
    rewrite V1. cbn -[verdict validationError]. rewrite V.
    destruct ok; cbn -[verdict validationError]; auto.
  - injection P as <-. destruct E1 as [s1 V1]; [auto |].
    destruct E2 as [s2 V2]; [auto |].
    rewrite V1. cbn -[verdict validationError].
    rewrite V2. cbn -[verdict validationError]. rewrite V.
    destruct ok; cbn -[verdict validationError]; auto 6.
  - destruct E1 as [s1 V1]; [auto |]. destruct E2 as [s2 V2]; [auto |].
    destruct E3 as [s3 V3]; [auto |].
    rewrite V1. cbn -[verdict validationError].
    rewrite V2. cbn -[verdict validationError].
    rewrite V3. cbn -[verdict validationError].
    rewrite P. cbn -[verdict validationError]. rewrite V.
    destruct ok; cbn -[verdict validationError]; auto 8.
Qed.

(** C3: a response is emitted exactly when the four schemas accept their
    payloads (the request's [params], [body] and [query], and the value
    the controller returns), which is also exactly when the run contains
    four successful validations; in that case the run is the whole
    pipeline, its one response has status 200 and the controller's
    return value as body, and it returns normally; every response of
    any run is of that form; and when a schema rejects its payload, or a
    validation fails in the run, nothing is sent and the run throws (a
    string, when the failed validation took place). *)
Theorem response_iff_all_valid :
  forall req,
    ((exists status v, In (Respond status v) (trace (handler req)))
     <-> (forall st, exists sch d,
             payload controller req st = Ok d
             /\ verdict_ (schema_ref schemas st) d = Ok (sch, true)))
    /\ ((exists status v, In (Respond status v) (trace (handler req)))
        <-> (forall st, exists sch d,
                In (Validate st sch d true) (trace (handler req))))
    /\ (forall s1 s2 s3 s4 v,
           verdict_ (paramsSchema schemas) (params req) = Ok (s1, true) ->
           verdict_ (reqBodySchema schemas) (body req) = Ok (s2, true) ->
           verdict_ (reqQuerySchema schemas) (query req) = Ok (s3, true) ->
           controller (params req) (body req) (query req) = Ok v ->
           verdict_ (resBodySchema schemas) v = Ok (s4, true) ->
           trace (handler req) =
             [ConsoleLog req;
              Validate Params s1 (params req) true;
              Validate ReqBody s2 (body req) true;
              Validate ReqQuery s3 (query req) true;
              Controller (params req) (body req) (query req);
              Validate ResBody s4 v true;
              Respond 200 v]
           /\ responses (trace (handler req)) = [(200%Z, v)]
           /\ outcome (handler req) = Ok tt)
    /\ (forall status v,
           In (Respond status v) (trace (handler req)) ->
           status = 200%Z
           /\ controller (params req) (body req) (query req) = Ok v
           /\ responses (trace (handler req)) = [(200%Z, v)]
           /\ outcome (handler req) = Ok tt)
    /\ (forall st sch d,
           payload controller req st = Ok d ->
           verdict_ (schema_ref schemas st) d = Ok (sch, false) ->
           responses (trace (handler req)) = []
           /\ exists e, outcome (handler req) = Throw e)
    /\ (forall st sch d,
           In (Validate st sch d false) (trace (handler req)) ->
           responses (trace (handler req)) = []
           /\ exists msg, outcome (handler req) = Throw (ThrownString msg)).
Proof.
  intros req. split; [| split; [| split; [| split; [| split]]]].
  - run_cases req; split.
    all: try (intros (status & v' & H); in_trace H; fail).
    all: try (intros H; failing_verdict H).
    + intros _ [].
      * exists s1, (params req). split; [reflexivity | assumption].
      * exists s2, (body req). split; [reflexivity | assumption].
      * exists s3, (query req). split; [reflexivity | assumption].
      * exists s4, v. split; [simpl; assumption | assumption].
    + intros _. exists 200%Z, v. simpl. auto 8.
  - run_cases req; split.
    all: try (intros (status & v' & H); in_trace H; fail).
    all: try (intros H; missing_stage H).
    + intros _ [].
      * exists s1, (params req). simpl. auto.
      * exists s2, (body req). simpl. auto.
      * exists s3, (query req). simpl. auto.
      * exists s4, v. simpl. auto 7.
    + intros _. exists 200%Z, v. simpl. auto 8.
  - intros s1 s2 s3 s4 v V1 V2 V3 C V4.
    rewrite (wrappedController_stages req). unfold check.
    rewrite V1. cbn -[verdict validationError].
    rewrite V2. cbn -[verdict validationError].
    rewrite V3. cbn -[verdict validationError].
    rewrite C. cbn -[verdict validationError].
    rewrite V4. repeat split; reflexivity.
  - intros status v'. run_cases req; intros H; in_trace H.
    injection H as <- <-. repeat split; reflexivity.
  - intros st sch d. run_cases req; intros P V.
    all: try (split; [reflexivity | eexists; reflexivity]).
    destruct st; simpl in P, V; congruence.
  - intros st sch d. run_cases req; intros H; in_trace H.
    all: split; [reflexivity | eexists; reflexivity].
Qed.

(** C4: a failed validation at any stage makes the run end by throwing
    the string [Could not validate <label> <payload> against schema
    <schema>], where the label is the one of the failing stage (the four
    labels are pairwise distinct), the payload is the value that stage
    validated and the schema is the one its reference resolved to, both
    rendered by [JSON.stringify]; this string is [validationError] of
    the three. *)
Theorem failure_raises_descriptive_error :
  forall req st sch d,
    In (Validate st sch d false) (trace (handler req)) ->
    outcome (handler req) =
      Throw (ThrownString
               ("Could not validate " ++ label st ++ " "
                  ++ interpolate (JSON_stringify d)
                  ++ " against schema "
                  ++ interpolate (JSON_stringify sch)))
    /\ outcome (handler req) = Throw (ThrownString (error_ (label st) d sch))
    /\ payload controller req st = Ok d
    /\ verdict_ (schema_ref schemas st) d = Ok (sch, false)
    /\ (forall st', label st' = label st -> st' = st).
Proof.
  intros req st sch d H.
  assert (L : forall st', label st' = label st -> st' = st)
    by (intros; now apply label_injective).
  revert H. run_cases req; intros H; in_trace H.
  all: injection H as <- <- <-; simpl; auto.
Qed.

(** C6: when the three request stages pass and the controller returns a
    value that its response schema rejects, the run is exactly log,
    three successful validations, the controller call, the failed
    response validation; it throws the response-body error and emits no
    response. *)
Theorem response_violation_fails_after_handler :
  forall req s1 s2 s3 s4 v,
    verdict_ (paramsSchema schemas) (params req) = Ok (s1, true) ->
    verdict_ (reqBodySchema schemas) (body req) = Ok (s2, true) ->
    verdict_ (reqQuerySchema schemas) (query req) = Ok (s3, true) ->
    controller (params req) (body req) (query req) = Ok v ->
    verdict_ (resBodySchema schemas) v = Ok (s4, false) ->
    trace (handler req) =
      [ConsoleLog req;
       Validate Params s1 (params req) true;
       Validate ReqBody s2 (body req) true;
       Validate ReqQuery s3 (query req) true;
       Controller (params req) (body req) (query req);
       Validate ResBody s4 v false]
    /\ outcome (handler req) =
       Throw (ThrownString (error_ "response body" v s4))
    /\ responses (trace (handler req)) = [].
Proof.
  intros req s1 s2 s3 s4 v V1 V2 V3 C V4.
  rewrite (wrappedController_stages req). unfold check.
  rewrite V1. cbn -[verdict validationError].
  rewrite V2. cbn -[verdict validationError].
  rewrite V3. cbn -[verdict validationError].
  rewrite C. cbn -[verdict validationError].
  rewrite V4. cbn -[verdict validationError].
  repeat split; reflexivity.
Qed.

(** C8: when the three request stages accept their payloads, the run
    validates the request's own [params], [body] and [query] and then
    applies the controller to exactly these three values: what the
    controller throws on them is what the run throws, and what it
    returns on them is the value the response stage validates and, when
    accepted, the body of the response; in every run the controller is
    called at most on these values; and when a request stage rejects its
    payload, the controller is not called, nothing is sent and the run
    throws. *)
Theorem valid_payloads_reach_handler_unchanged :
  forall req,
    (forall s1 s2 s3,
        verdict_ (paramsSchema schemas) (params req) = Ok (s1, true) ->
        verdict_ (reqBodySchema schemas) (body req) = Ok (s2, true) ->
        verdict_ (reqQuerySchema schemas) (query req) = Ok (s3, true) ->
        (exists rest,
            trace (handler req) =
              ([ConsoleLog req;
                Validate Params s1 (params req) true;
                Validate ReqBody s2 (body req) true;
                Validate ReqQuery s3 (query req) true;
                Controller (params req) (body req) (query req)] ++ rest)%list)
        /\ (forall e,
               controller (params req) (body req) (query req) = Throw e ->
               trace (handler req) =
                 [ConsoleLog req;
                  Validate Params s1 (params req) true;
                  Validate ReqBody s2 (body req) true;
                  Validate ReqQuery s3 (query req) true;
                  Controller (params req) (body req) (query req)]
               /\ outcome (handler req) = Throw e)
        /\ (forall v s4 ok,
               controller (params req) (body req) (query req) = Ok v ->
               verdict_ (resBodySchema schemas) v = Ok (s4, ok) ->
               trace (handler req) =
                 ([ConsoleLog req;
                   Validate Params s1 (params req) true;
                   Validate ReqBody s2 (body req) true;
                   Validate ReqQuery s3 (query req) true;
                   Controller (params req) (body req) (query req);
                   Validate ResBody s4 v ok]
                    ++ (if ok then [Respond 200 v] else []))%list
               /\ outcome (handler req) =
                  (if ok then Ok tt
                   else Throw (ThrownString
                                 (error_ "response body" v s4)))))
    /\ (forall p b q,
           In (Controller p b q) (trace (handler req)) ->
           p = params req /\ b = body req /\ q = query req)
    /\ (forall st sch d,
           st <> ResBody ->
           payload controller req st = Ok d ->
           verdict_ (schema_ref schemas st) d = Ok (sch, false) ->
           (forall e, In e (trace (handler req)) -> is_controller e = false)
           /\ responses (trace (handler req)) = []
           /\ exists e, outcome (handler req) = Throw e).
Proof.
  intros req. split; [| split].
  - intros s1' s2' s3' V1 V2 V3.
    rewrite (wrappedController_stages req). unfold check.
    rewrite V1. cbn -[verdict validationError].
    rewrite V2. cbn -[verdict validationError].
    rewrite V3. cbn -[verdict validationError].
    split; [| split].
    + destruct (controller (params req) (body req) (query req)) as [v | ec];
        cbn -[verdict validationError]; eexists; reflexivity.
    + intros e C. rewrite C. split; reflexivity.
    + intros v s4 ok C V4. rewrite C. cbn -[verdict validationError].
      rewrite V4. destruct ok; split; reflexivity.
  - intros p b q. run_cases req; intros H; in_trace H.
    all: injection H as <- <- <-; auto.
  - intros st sch d Hst P V.
    destruct st; simpl in P, V; try congruence;
      injection P as <-; revert V; run_cases req; intros V;
      try discriminate V.
    all: repeat split; try (eexists; reflexivity).
    all: intros e He; in_trace He; subst e; reflexivity.
Qed.

(** *** Runs that end outside a validation *)

(** X2: when the three request stages pass and the controller throws,
    the exception leaves the wrapper as it is: the run stops right after
    the controller call, the response is neither validated nor sent. *)
Theorem controller_exception_propagates :
  forall req s1 s2 s3 e,
    verdict_ (paramsSchema schemas) (params req) = Ok (s1, true) ->
    verdict_ (reqBodySchema schemas) (body req) = Ok (s2, true) ->
    verdict_ (reqQuerySchema schemas) (query req) = Ok (s3, true) ->
    controller (params req) (body req) (query req) = Throw e ->
    trace (handler req) =
      [ConsoleLog req;
       Validate Params s1 (params req) true;
       Validate ReqBody s2 (body req) true;
       Validate ReqQuery s3 (query req) true;
       Controller (params req) (body req) (query req)]
    /\ outcome (handler req) = Throw e.
Proof.
  intros req s1 s2 s3 e V1 V2 V3 C.
  rewrite (wrappedController_stages req). unfold check.
  rewrite V1. cbn -[verdict validationError].
  rewrite V2. cbn -[verdict validationError].
  rewrite V3. cbn -[verdict validationError].
  rewrite C. split; reflexivity.
Qed.

(** X3: the response schema is loaded and compiled only after the
    controller has returned: when that fails, the controller has already
    been called, and the run throws the loading or compilation error
    without validating or sending anything. *)
Theorem response_schema_resolved_after_controller :
  forall req s1 s2 s3 v e,
    verdict_ (paramsSchema schemas) (params req) = Ok (s1, true) ->
    verdict_ (reqBodySchema schemas) (body req) = Ok (s2, true) ->
    verdict_ (reqQuerySchema schemas) (query req) = Ok (s3, true) ->
    controller (params req) (body req) (query req) = Ok v ->
    verdict_ (resBodySchema schemas) v = Throw e ->
    trace (handler req) =
      [ConsoleLog req;
       Validate Params s1 (params req) true;
       Validate ReqBody s2 (body req) true;
       Validate ReqQuery s3 (query req) true;
       Controller (params req) (body req) (query req)]
    /\ outcome (handler req) = Throw e.
Proof.
  intros req s1 s2 s3 v e V1 V2 V3 C V4.
  rewrite (wrappedController_stages req). unfold check.
  rewrite V1. cbn -[verdict validationError].
  rewrite V2. cbn -[verdict validationError].
  rewrite V3. cbn -[verdict validationError].
  rewrite C. cbn -[verdict validationError].
  rewrite V4. split; reflexivity.
Qed.

(** X4: every run either returns normally after exactly one response,
    of status 200 and carrying the controller's value, or throws without
    having sent anything. *)
Theorem responds_once_or_throws :
  forall req,
    (outcome (handler req) = Ok tt
     /\ exists v,
         controller (params req) (body req) (query req) = Ok v
         /\ responses (trace (handler req)) = [(200%Z, v)])
    \/ (responses (trace (handler req)) = []
        /\ exists e, outcome (handler req) = Throw e).
Proof.
  intros req. run_cases req.
  all: try (right; split; [reflexivity | eexists; reflexivity]).
  left. split; [reflexivity |]. exists v. split; reflexivity.
Qed.

(** X5: what a run throws is the validation message of a stage whose
    validation failed in that run, or the error of loading or compiling
    the schema of a stage, or what the controller threw; the wrapper has
    no other source of exceptions. *)
Theorem thrown_error_origin :
  forall req e,
    outcome (handler req) = Throw e ->
    (exists st sch d,
        In (Validate st sch d false) (trace (handler req))
        /\ e = ThrownString (error_ (label st) d sch))
    \/ (exists st d,
          payload controller req st = Ok d
          /\ verdict_ (schema_ref schemas st) d = Throw e)
    \/ controller (params req) (body req) (query req) = Throw e.
Proof.
  intros req e. run_cases req; intros H; try discriminate H;
    injection H as <-.
  all: try (right; right; reflexivity).
  all: try (left; do 3 eexists; split; [simpl; eauto 10 | reflexivity]).
  all: right; left;
    first
      [ exists Params, (params req); split; [reflexivity | assumption]
      | exists ReqBody, (body req); split; [reflexivity | assumption]
      | exists ReqQuery, (query req); split; [reflexivity | assumption]
      | exists ResBody; eexists; split; [simpl; eassumption | assumption] ].
Qed.

(** X6: the request is logged first in every run, also in one that is
    rejected, and it is logged once. *)
Theorem request_logged_first_once :
  forall req,
    exists rest,
      trace (handler req) = ConsoleLog req :: rest
      /\ forall r, ~ In (ConsoleLog r) rest.
Proof.
  intros req. run_cases req; eexists; (split; [reflexivity |]).
  all: intros r H; in_trace H.
Qed.

(** Every validation event of a run reports the verdict of its own stage
    on that stage's payload. *)
Lemma validate_event_verdict :
  forall req st sch d ok,
    In (Validate st sch d ok) (trace (handler req)) ->
    payload controller req st = Ok d
    /\ verdict_ (schema_ref schemas st) d = Ok (sch, ok).
Proof.
  intros req st sch d ok. run_cases req; intros H; in_trace H.
  all: injection H as <- <- <- <-; simpl; auto.
Qed.

End Stages.

(** ** Absent references *)

Lemma empty_schema_accepts :
  forall d, Ajv.compile (VObj []) = Some (Ajv.validate (VObj []))
            /\ Ajv.validate (VObj []) d = true.
Proof. intros d. split; reflexivity. Qed.

(** C5: when a stage's schema reference is absent (or the empty string,
    which is falsy too), loading it gives the empty schema without
    touching the schema files, Ajv compiles the empty schema to a
    function that accepts every payload, and so the stage accepts: in
    every run that reaches the stage (its predecessors pass) the stage
    validates its payload against the empty schema with success, and no
    run contains any other validation by that stage. *)
Theorem absent_reference_accepts_everything :
  forall require JSON_stringify schemas controller st,
    given (schema_ref schemas st) = None ->
    load_schema require (schema_ref schemas st) = ret (VObj [])
    /\ (exists validate,
          ajv_compile Ajv.compile (VObj []) = ret validate
          /\ forall d, validate d = true)
    /\ (forall d,
           verdict require Ajv.compile (schema_ref schemas st) d
           = Ok (VObj [], true))
    /\ (forall req d,
           payload controller req st = Ok d ->
           (forall st',
               In st' (earlier st) ->
               exists sch' d',
                 payload controller req st' = Ok d'
                 /\ verdict require Ajv.compile (schema_ref schemas st') d'
                    = Ok (sch', true)) ->
           In (Validate st (VObj []) d true)
              (trace (wrappedController require Ajv.compile JSON_stringify
                                        schemas controller req)))
    /\ (forall req sch d ok,
           In (Validate st sch d ok)
              (trace (wrappedController require Ajv.compile JSON_stringify
                                        schemas controller req)) ->
           sch = VObj [] /\ ok = true).
Proof.
  intros require JSON_stringify schemas controller st Habsent.
  assert (E : forall d,
             verdict require Ajv.compile (schema_ref schemas st) d
             = Ok (VObj [], true)).
  { intros d. unfold verdict. rewrite Habsent. reflexivity. }
  split; [| split; [| split; [| split]]].
  - unfold load_schema. rewrite Habsent. reflexivity.
  - exists (Ajv.validate (VObj [])). split; reflexivity.
  - exact E.
  - intros req d P Hearlier.
    apply reached_stage_validates; [exact P | exact Hearlier | apply E].
  - intros req sch d ok H.
    apply validate_event_verdict in H. destruct H as [_ H].
    rewrite E in H. injection H as <- <-. split; reflexivity.
Qed.

(** ** The example route *)

Lemma verdict_EditTodoParams d :
  verdict schemas_dir Ajv.compile (Some "EditTodoParams") d
  = Ok (EditTodoParams_json, Ajv.validate EditTodoParams_json d).
Proof. reflexivity. Qed.

Lemma verdict_EditTodoReqBody d :
  verdict schemas_dir Ajv.compile (Some "EditTodoReqBody") d
  = Ok (EditTodoReqBody_json, Ajv.validate EditTodoReqBody_json d).
Proof. reflexivity. Qed.

Lemma verdict_EditTodoResBody d :
  verdict schemas_dir Ajv.compile (Some "EditTodoResBody") d
  = Ok (EditTodoResBody_json, Ajv.validate EditTodoResBody_json d).
Proof. reflexivity. Qed.

Lemma verdict_no_query d :
  verdict schemas_dir Ajv.compile None d = Ok (VObj [], true).
Proof. reflexivity. Qed.

Lemma body_without_message_rejected b :
  lacks "message" b = true -> Ajv.validate EditTodoReqBody_json b = false.
Proof.
  destruct b; try reflexivity.
  unfold lacks. cbn. intros H.
  destruct (JS.own props "message"); try discriminate H.
  cbn. now rewrite ?andb_true_r, ?andb_false_r.
Qed.

Lemma params_accepted_inv p :
  Ajv.validate EditTodoParams_json p = true ->
  exists ps i, p = VObj ps /\ JS.own ps "id" = VStr i.
Proof.
  destruct p as [| | | | | | ps]; try discriminate. cbn. intros H.
  destruct (JS.own ps "id") as [| | | | i | |] eqn:E;
    cbn in H; rewrite ?andb_true_r, ?andb_false_r in H; try discriminate H.
  now exists ps, i.
Qed.

Lemma body_accepted_inv b :
  Ajv.validate EditTodoReqBody_json b = true ->
  exists bs m, b = VObj bs /\ JS.own bs "message" = VStr m.
Proof.
  destruct b as [| | | | | | bs]; try discriminate. cbn. intros H.
  destruct (JS.own bs "message") as [| | | | m | |] eqn:E;
    cbn in H; rewrite ?andb_true_r, ?andb_false_r in H; try discriminate H.
  now exists bs, m.
Qed.

(** The stages of the example route, with its schemas resolved. *)
Ltac todo_stages req :=
  unfold todo_route; rewrite (wrappedController_stages _ _ _ _ _ req);
  unfold check;
  cbn [paramsSchema reqBodySchema reqQuerySchema resBodySchema todo_schemas];
  rewrite ?verdict_EditTodoParams.

Ltac todo_step :=
  cbn -[verdict validationError Ajv.validate editTodo
        EditTodoParams_json EditTodoReqBody_json EditTodoResBody_json].

Lemma editTodo_on_accepted ps bs q i m :
  JS.own ps "id" = VStr i ->
  JS.own bs "message" = VStr m ->
  editTodo (VObj ps) (VObj bs) q =
  Ok (VObj [("id", VStr i); ("message", VStr m);
            ("completed", VBool (negb (JS.truthy (JS.own bs "completed"))))]).
Proof.
  intros Hi Hm. unfold editTodo, JS.get_prop. rewrite Hi, Hm. reflexivity.
Qed.

(** A request with accepted [params] and [body] runs the whole pipeline
    and is answered with the controller's record. *)
Lemma valid_todo_run JSON_stringify req :
  valid_todo_request req = true ->
  exists v,
    editTodo (params req) (body req) (query req) = Ok v
    /\ trace (todo_route JSON_stringify req) =
         [ConsoleLog req;
          Validate Params EditTodoParams_json (params req) true;
          Validate ReqBody EditTodoReqBody_json (body req) true;
          Validate ReqQuery (VObj []) (query req) true;
          Controller (params req) (body req) (query req);
          Validate ResBody EditTodoResBody_json v true;
          Respond 200 v]
    /\ outcome (todo_route JSON_stringify req) = Ok tt.
Proof.
  unfold valid_todo_request. intros H.
  apply andb_true_iff in H. destruct H as [Hp Hb].
  destruct (params_accepted_inv _ Hp) as (ps & i & Ep & Ei).
  destruct (body_accepted_inv _ Hb) as (bs & m & Eb & Em).
  pose proof (editTodo_on_accepted ps bs (query req) i m Ei Em) as Hc.
  rewrite <- Ep, <- Eb in Hc.
  eexists. split; [exact Hc |].
  todo_stages req. rewrite Hp. todo_step.
  rewrite verdict_EditTodoReqBody, Hb. todo_step.
  rewrite verdict_no_query. todo_step.
  rewrite Hc. todo_step.
  rewrite verdict_EditTodoResBody.
  replace (Ajv.validate EditTodoResBody_json _) with true by reflexivity.
  split; reflexivity.
Qed.

(** C7: on the example route, a request whose body has no [message]
    never reaches the controller, is not answered and ends by throwing;
    when its [params] are accepted (as for the [{id: string}] object
    that the route [/todo/:id] yields), the run stops at the failed body
    validation against [EditTodoReqBody] and throws the body error. *)
Theorem missing_message_fails_before_handler :
  forall JSON_stringify req,
    lacks "message" (body req) = true ->
    (forall e, In e (trace (todo_route JSON_stringify req)) ->
               is_controller e = false)
    /\ responses (trace (todo_route JSON_stringify req)) = []
    /\ (exists e, outcome (todo_route JSON_stringify req) = Throw e)
    /\ (Ajv.validate EditTodoParams_json (params req) = true ->
        trace (todo_route JSON_stringify req) =
          [ConsoleLog req;
           Validate Params EditTodoParams_json (params req) true;
           Validate ReqBody EditTodoReqBody_json (body req) false]
        /\ outcome (todo_route JSON_stringify req) =
           Throw (ThrownString
                    (validationError JSON_stringify "body" (body req)
                                     EditTodoReqBody_json))).
Proof.
  intros JSON_stringify req Hl.
  pose proof (body_without_message_rejected _ Hl) as Hb.
  todo_stages req.
  destruct (Ajv.validate EditTodoParams_json (params req)); todo_step.
  - rewrite verdict_EditTodoReqBody, Hb. todo_step.
    repeat split; try (eexists; reflexivity).
    intros e He; in_trace He; subst e; reflexivity.
  - repeat split; try (eexists; reflexivity); try discriminate.
    intros e He; in_trace He; subst e; reflexivity.
Qed.

(** C9: two requests to the example route with the same [params], [body]
    and [query], the first of them valid, get the same response and end
    the same way: one response, with status 200 and the record that
    [editTodo] computes from the payloads. *)
Theorem same_request_same_response :
  forall JSON_stringify r1 r2,
    valid_todo_request r1 = true ->
    params r1 = params r2 ->
    body r1 = body r2 ->
    query r1 = query r2 ->
    responses (trace (todo_route JSON_stringify r1))
    = responses (trace (todo_route JSON_stringify r2))
    /\ outcome (todo_route JSON_stringify r1)
       = outcome (todo_route JSON_stringify r2)
    /\ exists v,
        editTodo (params r1) (body r1) (query r1) = Ok v
        /\ responses (trace (todo_route JSON_stringify r1)) = [(200%Z, v)]
        /\ outcome (todo_route JSON_stringify r1) = Ok tt.
Proof.
  intros JSON_stringify r1 r2 Hv Hp Hb Hq.
  assert (Hv2 : valid_todo_request r2 = true).
  { unfold valid_todo_request in *. now rewrite <- Hp, <- Hb. }
  destruct (valid_todo_run JSON_stringify r1 Hv) as (v1 & C1 & T1 & O1).
  destruct (valid_todo_run JSON_stringify r2 Hv2) as (v2 & C2 & T2 & O2).
  rewrite <- Hp, <- Hb, <- Hq in C2.
  assert (v2 = v1) by congruence. subst v2.
  rewrite T1, T2, O1, O2. simpl.
  repeat split. exists v1. repeat split. exact C1.
Qed.

(** ** Concrete runs *)

Example readme_response :
  responses (trace (todo_route JSON.stringify readme_request))
  = [(200%Z, VObj [("id", VStr "1"); ("message", VStr "todo");
                   ("completed", VBool true)])].
Proof. reflexivity. Qed.

Example completed_true_is_negated :
  responses
    (trace (todo_route JSON.stringify
              (mkreq (VObj [("id", VStr "1")])
                     (VObj [("message", VStr "todo"); ("completed", VBool true)])
                     (VObj []))))
  = [(200%Z, VObj [("id", VStr "1"); ("message", VStr "todo");
                   ("completed", VBool false)])].
Proof. reflexivity. Qed.

Example missing_id_stops_at_params :
  steps (trace (todo_route JSON.stringify (mkreq (VObj []) (VObj []) (VObj []))))
  = [SValidate Params].
Proof. reflexivity. Qed.

Example app_has_one_route : map fst app = ["/todo/:id"].
Proof. reflexivity. Qed.

Lemma failure_raises_descriptive_error_witness :
  In (Validate ReqBody EditTodoReqBody_json (VObj []) false)
     (trace (todo_route JSON.stringify empty_body_request))
  /\ outcome (todo_route JSON.stringify empty_body_request)
     = Throw (ThrownString empty_body_message).
Proof.
  assert (H : In (Validate ReqBody EditTodoReqBody_json (VObj []) false)
                 (trace (todo_route JSON.stringify empty_body_request))).
  { simpl. right. right. left. reflexivity. }
  split; [exact H |].
  exact (proj1 (failure_raises_descriptive_error
                  schemas_dir Ajv.compile JSON.stringify todo_schemas editTodo
                  empty_body_request ReqBody EditTodoReqBody_json (VObj []) H)).
Defined.

Lemma absent_reference_accepts_everything_witness :
  given (schema_ref todo_schemas ReqQuery) = None
  /\ In (Validate ReqQuery (VObj []) (VStr "anything") true)
        (trace (todo_route JSON.stringify
                  (mkreq (VObj [("id", VStr "1")])
                         (VObj [("message", VStr "todo")])
                         (VStr "anything")))).
Proof.
  split; [reflexivity |].
  refine (proj1 (proj2 (proj2 (proj2
            (absent_reference_accepts_everything
               schemas_dir JSON.stringify todo_schemas editTodo ReqQuery
               eq_refl))))
            (mkreq (VObj [("id", VStr "1")])
                   (VObj [("message", VStr "todo")])
                   (VStr "anything"))
            (VStr "anything") eq_refl _).
  intros st' [<- | [<- | []]].
  - exists EditTodoParams_json, (VObj [("id", VStr "1")]).
    split; reflexivity.
  - exists EditTodoReqBody_json, (VObj [("message", VStr "todo")]).
    split; reflexivity.
Defined.

Lemma response_violation_fails_after_handler_witness :
  verdict schemas_dir Ajv.compile (paramsSchema todo_schemas)
          (params readme_request) = Ok (EditTodoParams_json, true)
  /\ verdict schemas_dir Ajv.compile (reqBodySchema todo_schemas)
             (body readme_request) = Ok (EditTodoReqBody_json, true)
  /\ verdict schemas_dir Ajv.compile (reqQuerySchema todo_schemas)
             (query readme_request) = Ok (VObj [], true)
  /\ lying_controller (params readme_request) (body readme_request)
                      (query readme_request) = Ok (VObj [])
  /\ verdict schemas_dir Ajv.compile (resBodySchema todo_schemas) (VObj [])
     = Ok (EditTodoResBody_json, false)
  /\ responses
       (trace (wrappedController schemas_dir Ajv.compile JSON.stringify
                                 todo_schemas lying_controller readme_request))
     = [].
Proof.
  repeat (split; [reflexivity |]).
  exact (proj2 (proj2 (response_violation_fails_after_handler
                         schemas_dir Ajv.compile JSON.stringify todo_schemas
                         lying_controller readme_request
                         EditTodoParams_json EditTodoReqBody_json (VObj [])
                         EditTodoResBody_json (VObj [])
                         eq_refl eq_refl eq_refl eq_refl eq_refl))).
Defined.

Lemma missing_message_fails_before_handler_witness :
  lacks "message" (body empty_body_request) = true
  /\ responses (trace (todo_route JSON.stringify empty_body_request)) = [].
Proof.
  split; [reflexivity |].
  exact (proj1 (proj2 (missing_message_fails_before_handler
                         JSON.stringify empty_body_request eq_refl))).
Defined.

Lemma same_request_same_response_witness :
  valid_todo_request readme_request = true
  /\ responses (trace (todo_route JSON.stringify readme_request))
     = responses (trace (todo_route JSON.stringify readme_request_again)).
Proof.
  split; [reflexivity |].
  exact (proj1 (same_request_same_response
                  JSON.stringify readme_request readme_request_again
                  eq_refl eq_refl eq_refl eq_refl)).
Defined.

(** ** Further properties of the controller *)

(** X1: [editTodo] throws exactly when [params] or [reqBody] is [null]
    or [undefined], and then a [TypeError]; on all other arguments it
    returns an object with the keys [id], [message], [completed] in this
    order, whose [completed] is a boolean. *)
Theorem editTodo_throws_iff_nullish :
  forall p b q,
    ((exists e, editTodo p b q = Throw e) <-> nullish p || nullish b = true)
    /\ (forall e, editTodo p b q = Throw e -> e = TypeError)
    /\ (forall v, editTodo p b q = Ok v ->
                  exists i m c,
                    v = VObj [("id", i); ("message", m);
                              ("completed", VBool c)]).
Proof.
  intros p b q. split; [split | split].
  - intros [e H]. destruct p, b; try reflexivity; discriminate H.
  - intros H. destruct p, b; try discriminate H; eexists; reflexivity.
  - intros e H. destruct p, b; try discriminate H;
      injection H as <-; reflexivity.
  - intros v H. destruct p, b; try discriminate H;
      injection H as <-; do 3 eexists; reflexivity.
Qed.

(** ** Further properties of the wrapper *)

(** X7: while the params stage does not pass, nothing else of the
    registration is looked at: two registrations with the same params
    reference, whatever their other references and their controllers,
    run identically on the request. *)
Theorem params_failure_hides_rest_of_registration :
  forall require compile JSON_stringify schemas1 schemas2
         controller1 controller2 req,
    paramsSchema schemas1 = paramsSchema schemas2 ->
    (forall s, verdict require compile (paramsSchema schemas1) (params req)
               <> Ok (s, true)) ->
    wrappedController require compile JSON_stringify schemas1 controller1 req
    = wrappedController require compile JSON_stringify schemas2 controller2 req.
Proof.
  intros require compile JSON_stringify schemas1 schemas2
         controller1 controller2 req Href Hfail.
  rewrite !wrappedController_stages. unfold check. rewrite <- Href.
  destruct (verdict require compile (paramsSchema schemas1) (params req))
    as [[s [|]] | e].
  - exfalso. apply (Hfail s). reflexivity.
  - reflexivity.
  - reflexivity.
Qed.

(** X8: the message of a validation error tells the stage: the messages
    of two different stages differ, whatever the payloads, the schemas
    and their renderings. *)
Theorem error_message_identifies_stage :
  forall JSON_stringify st1 st2 d1 d2 sch1 sch2,
    validationError JSON_stringify (label st1) d1 sch1
    = validationError JSON_stringify (label st2) d2 sch2 ->
    st1 = st2.
Proof.
  intros JSON_stringify st1 st2 d1 d2 sch1 sch2.
  unfold validationError.
  destruct st1, st2; simpl; intros H; try reflexivity; discriminate H.
Qed.

(** ** What the three schema documents accept *)

(** X9: [EditTodoParams] accepts exactly the objects whose [id] is a
    string. *)
Theorem EditTodoParams_accepts_iff :
  forall p,
    Ajv.validate EditTodoParams_json p = true
    <-> exists ps, p = VObj ps /\ is_string (JS.own ps "id") = true.
Proof.
  intros p. split.
  - intros H. destruct (params_accepted_inv p H) as (ps & i & -> & E).
    exists ps. rewrite E. split; reflexivity.
  - intros (ps & -> & H). cbn.
    destruct (JS.own ps "id"); try discriminate H. reflexivity.
Qed.

(** X10: [EditTodoReqBody] accepts exactly the objects whose [message]
    is a string and whose property named [completed?] is missing, null
    or a boolean; it puts no condition on a property named
    [completed]. *)
Theorem EditTodoReqBody_accepts_iff :
  forall b,
    Ajv.validate EditTodoReqBody_json b = true
    <-> exists bs,
        b = VObj bs
        /\ is_string (JS.own bs "message") = true
        /\ optional_boolean (JS.own bs "completed?") = true.
Proof.
  intros b. split.
  - intros H. destruct b as [| | | | | | bs]; try discriminate H.
    exists bs. split; [reflexivity |]. cbn in H.
    destruct (JS.own bs "message"), (JS.own bs "completed?");
      cbn in H; try discriminate H; split; reflexivity.
  - intros (bs & -> & Hm & Hc). cbn.
    destruct (JS.own bs "message"), (JS.own bs "completed?");
      try discriminate Hm; try discriminate Hc; reflexivity.
Qed.

(** X11: [EditTodoResBody] accepts exactly the objects whose [id] and
    [message] are strings and whose [completed] is a boolean. *)
Theorem EditTodoResBody_accepts_iff :
  forall r,
    Ajv.validate EditTodoResBody_json r = true
    <-> exists rs,
        r = VObj rs
        /\ is_string (JS.own rs "id") = true
        /\ is_string (JS.own rs "message") = true
        /\ is_boolean (JS.own rs "completed") = true.
Proof.
  intros r. split.
  - intros H. destruct r as [| | | | | | rs]; try discriminate H.
    exists rs. split; [reflexivity |]. cbn in H.
    destruct (JS.own rs "id"), (JS.own rs "message"),
             (JS.own rs "completed");
      cbn in H; try discriminate H; repeat split; reflexivity.
  - intros (rs & -> & Hi & Hm & Hc). cbn.
    destruct (JS.own rs "id"), (JS.own rs "message"),
             (JS.own rs "completed");
      try discriminate Hi; try discriminate Hm; try discriminate Hc;
      reflexivity.
Qed.

(** X12: what [editTodo] returns on objects satisfies [EditTodoResBody]
    exactly when [params.id] and [reqBody.message] are strings: its
    [completed] never makes the response invalid. *)
Theorem editTodo_result_valid_iff :
  forall ps bs q,
    exists v,
      editTodo (VObj ps) (VObj bs) q = Ok v
      /\ Ajv.validate EditTodoResBody_json v
         = is_string (JS.own ps "id") && is_string (JS.own bs "message").
Proof.
  intros ps bs q. eexists. split; [reflexivity |].
  cbn. destruct (JS.own ps "id"), (JS.own bs "message"); reflexivity.
Qed.

(** ** The example route on every request *)

(** X13: the example route has three ways to end, decided by the two
    request schemas alone: rejected params stop the run at the params
    validation with the request error; accepted params with a rejected
    body stop it at the body validation with the body error; otherwise
    the response is the record built from [params.id], [body.message]
    and the negated [body.completed], with status 200.  Loading,
    compiling, the controller and the response validation never fail on
    it. *)
Theorem todo_route_outcomes :
  forall JSON_stringify req,
    (Ajv.validate EditTodoParams_json (params req) = false ->
     trace (todo_route JSON_stringify req) =
       [ConsoleLog req;
        Validate Params EditTodoParams_json (params req) false]
     /\ outcome (todo_route JSON_stringify req) =
        Throw (ThrownString
                 (validationError JSON_stringify "request" (params req)
                                  EditTodoParams_json)))
    /\ (Ajv.validate EditTodoParams_json (params req) = true ->
        Ajv.validate EditTodoReqBody_json (body req) = false ->
        trace (todo_route JSON_stringify req) =
          [ConsoleLog req;
           Validate Params EditTodoParams_json (params req) true;
           Validate ReqBody EditTodoReqBody_json (body req) false]
        /\ outcome (todo_route JSON_stringify req) =
           Throw (ThrownString
                    (validationError JSON_stringify "body" (body req)
                                     EditTodoReqBody_json)))
    /\ (Ajv.validate EditTodoParams_json (params req) = true ->
        Ajv.validate EditTodoReqBody_json (body req) = true ->
        exists ps bs i m,
          params req = VObj ps /\ body req = VObj bs
          /\ JS.own ps "id" = VStr i /\ JS.own bs "message" = VStr m
          /\ responses (trace (todo_route JSON_stringify req)) =
             [(200%Z,
               VObj [("id", VStr i); ("message", VStr m);
                     ("completed",
                      VBool (negb (JS.truthy (JS.own bs "completed"))))])]
          /\ outcome (todo_route JSON_stringify req) = Ok tt).
Proof.
  intros JSON_stringify req. split; [| split].
  - intros Hp. todo_stages req. rewrite Hp. split; reflexivity.
  - intros Hp Hb. todo_stages req. rewrite Hp. todo_step.
    rewrite verdict_EditTodoReqBody, Hb. split; reflexivity.
  - intros Hp Hb.
    destruct (params_accepted_inv _ Hp) as (ps & i & Ep & Ei).
    destruct (body_accepted_inv _ Hb) as (bs & m & Eb & Em).
    exists ps, bs, i, m. repeat (split; [assumption |]).
    assert (Hv : valid_todo_request req = true)
      by (unfold valid_todo_request; now rewrite Hp, Hb).
    destruct (valid_todo_run JSON_stringify req Hv) as (v & C & T & O).
    rewrite Ep, Eb, (editTodo_on_accepted ps bs (query req) i m Ei Em) in C.
    injection C as <-. rewrite T, O. split; reflexivity.
Qed.

(** X14: the body schema does not check the type of [completed]: a body
    with a string [message] and any value at all as [completed] is
    accepted, and the response's [completed] is the negation of that
    value's truthiness. *)
Theorem completed_is_not_type_checked :
  forall JSON_stringify i m c q u h,
    responses
      (trace
         (todo_route JSON_stringify
            {| params := VObj [("id", VStr i)];
               body := VObj [("message", VStr m); ("completed", c)];
               query := q; url := u; headers := h |}))
    = [(200%Z,
        VObj [("id", VStr i); ("message", VStr m);
              ("completed", VBool (negb (JS.truthy c)))])].
Proof.
  intros JSON_stringify i m c q u h.
  set (req := {| params := VObj [("id", VStr i)];
                 body := VObj [("message", VStr m); ("completed", c)];
                 query := q; url := u; headers := h |}).
  destruct (valid_todo_run JSON_stringify req eq_refl) as (v & C & T & _).
  rewrite T. injection C as <-. reflexivity.
Qed.

(** ** Instances *)

Lemma controller_exception_propagates_witness :
  verdict schemas_dir Ajv.compile (paramsSchema no_schemas)
          (params bodiless_request) = Ok (VObj [], true)
  /\ verdict schemas_dir Ajv.compile (reqBodySchema no_schemas)
             (body bodiless_request) = Ok (VObj [], true)
  /\ verdict schemas_dir Ajv.compile (reqQuerySchema no_schemas)
             (query bodiless_request) = Ok (VObj [], true)
  /\ editTodo (params bodiless_request) (body bodiless_request)
              (query bodiless_request) = Throw TypeError
  /\ outcome (wrappedController schemas_dir Ajv.compile JSON.stringify
                                no_schemas editTodo bodiless_request)
     = Throw TypeError.
Proof.
  repeat (split; [reflexivity |]).
  exact (proj2 (controller_exception_propagates
                  schemas_dir Ajv.compile JSON.stringify no_schemas editTodo
                  bodiless_request (VObj []) (VObj []) (VObj []) TypeError
                  eq_refl eq_refl eq_refl eq_refl)).
Defined.

Lemma response_schema_resolved_after_controller_witness :
  verdict schemas_dir Ajv.compile (paramsSchema missing_response_schema)
          (params readme_request) = Ok (EditTodoParams_json, true)
  /\ verdict schemas_dir Ajv.compile (reqBodySchema missing_response_schema)
             (body readme_request) = Ok (EditTodoReqBody_json, true)
  /\ verdict schemas_dir Ajv.compile (reqQuerySchema missing_response_schema)
             (query readme_request) = Ok (VObj [], true)
  /\ editTodo (params readme_request) (body readme_request)
              (query readme_request)
     = Ok (VObj [("id", VStr "1"); ("message", VStr "todo");
                 ("completed", VBool true)])
  /\ verdict schemas_dir Ajv.compile (resBodySchema missing_response_schema)
             (VObj [("id", VStr "1"); ("message", VStr "todo");
                    ("completed", VBool true)])
     = Throw (CannotFindModule "./schemas/NoSuchSchema.json")
  /\ outcome (wrappedController schemas_dir Ajv.compile JSON.stringify
                                missing_response_schema editTodo
                                readme_request)
     = Throw (CannotFindModule "./schemas/NoSuchSchema.json").
Proof.
  repeat (split; [reflexivity |]).
  exact (proj2 (response_schema_resolved_after_controller
                  schemas_dir Ajv.compile JSON.stringify
                  missing_response_schema editTodo readme_request
                  EditTodoParams_json EditTodoReqBody_json (VObj [])
                  (VObj [("id", VStr "1"); ("message", VStr "todo");
                         ("completed", VBool true)])
                  (CannotFindModule "./schemas/NoSuchSchema.json")
                  eq_refl eq_refl eq_refl eq_refl eq_refl)).
Defined.

Lemma thrown_error_origin_witness :
  outcome (todo_route JSON.stringify empty_body_request)
  = Throw (ThrownString
             (validationError JSON.stringify "body" (VObj [])
                              EditTodoReqBody_json))
  /\ ((exists st sch d,
         In (Validate st sch d false)
            (trace (todo_route JSON.stringify empty_body_request))
         /\ ThrownString (validationError JSON.stringify "body" (VObj [])
                                          EditTodoReqBody_json)
            = ThrownString (validationError JSON.stringify (label st) d sch))
      \/ (exists st d,
            payload editTodo empty_body_request st = Ok d
            /\ verdict schemas_dir Ajv.compile
                       (schema_ref todo_schemas st) d
               = Throw (ThrownString
                          (validationError JSON.stringify "body" (VObj [])
                                           EditTodoReqBody_json)))
      \/ editTodo (params empty_body_request) (body empty_body_request)
                  (query empty_body_request)
         = Throw (ThrownString
                    (validationError JSON.stringify "body" (VObj [])
                                     EditTodoReqBody_json))).
Proof.
  split; [reflexivity |].
  exact (thrown_error_origin
           schemas_dir Ajv.compile JSON.stringify todo_schemas editTodo
           empty_body_request _ eq_refl).
Defined.

Lemma params_failure_hides_rest_of_registration_witness :
  paramsSchema todo_schemas = paramsSchema missing_response_schema
  /\ (forall s, verdict schemas_dir Ajv.compile (paramsSchema todo_schemas)
                        (params no_id_request) <> Ok (s, true))
  /\ wrappedController schemas_dir Ajv.compile JSON.stringify
                       todo_schemas editTodo no_id_request
     = wrappedController schemas_dir Ajv.compile JSON.stringify
                         missing_response_schema lying_controller
                         no_id_request.
Proof.
  assert (H : forall s, verdict schemas_dir Ajv.compile
                                (paramsSchema todo_schemas)
                                (params no_id_request) <> Ok (s, true)).
  { intros s E. vm_compute in E. discriminate E. }
  split; [reflexivity |]. split; [exact H |].
  exact (params_failure_hides_rest_of_registration
           schemas_dir Ajv.compile JSON.stringify
           todo_schemas missing_response_schema editTodo lying_controller
           no_id_request eq_refl H).
Defined.

Lemma error_message_identifies_stage_witness :
  validationError JSON.stringify (label ReqQuery) VNull (VBool false)
  = validationError JSON.stringify (label ReqQuery) VNull (VBool false)
  /\ ReqQuery = ReqQuery.
Proof.
  split; [reflexivity |].
  exact (error_message_identifies_stage
           JSON.stringify ReqQuery ReqQuery VNull VNull
           (VBool false) (VBool false) eq_refl).
Defined.
